(** * cmdnotify: run a command, then report its exit status with notify-send

    A shallow embedding of the three variants of the program that the
    repository holds:

    - [Sys]   : cmdnotify.c, first variant (joins the arguments into one
                command line and runs it with system());
    - [Exec0] : unnamed/part_000 (fork/execv/waitpid, argument vector built
                by hand, no privilege and no target-existence check);
    - [Cmd]   : cmdnotify.c, second variant (create_progpath, prog_exists,
                geteuid check, "-u" urgency, "'%s' returned %d" body).

    The operating system is an explicit oracle ([world]): effective user id,
    file existence, what the heap hands out, whether fork succeeds and the
    status word waitpid stores.  What the program does to the outside is a
    trace of [event]s.  Heap objects carry their size, so that a store or a
    strcat that leaves the object is visible as [Undefined].  malloc, calloc
    and realloc are taken to succeed. *)

From Stdlib Require Import ZArith List String Ascii Bool Arith Lia DecimalString.
Import ListNotations.
Local Open Scope string_scope.

(** ** Results of running C code *)

Inductive outcome (A : Type) : Type :=
| Returned (a : A)   (* the code ran to its return *)
| Aborted            (* assert() failed, the process is killed by abort() *)
| Undefined.         (* undefined behaviour: an access outside a heap object,
                        or a read of an indeterminate value *)

Arguments Returned {A} a.
Arguments Aborted {A}.
Arguments Undefined {A}.

Definition bind {A B : Type} (m : outcome A) (k : A -> outcome B) : outcome B :=
  match m with
  | Returned a => k a
  | Aborted => Aborted
  | Undefined => Undefined
  end.

Notation "x <- m ;; k" := (bind m (fun x => k))
  (at level 61, m at next level, right associativity).
Notation "' pat <- m ;; k" := (bind m (fun x => match x with pat => k end))
  (at level 61, pat pattern, m at next level, right associativity).

(** ** The environment *)

(** What the process does that is visible outside it. *)
Inductive event : Type :=
| Stderr (text : string)                          (* fprintf(stderr, ...) *)
| Perror (prefix : string)                        (* perror(prefix) *)
| Execv (path : string) (argv : list (option string))
                                                  (* fork, execv(path, argv) in the child,
                                                     waitpid; [None] is a NULL entry *)
| Execl (path : string) (args : list string)      (* fork, execl(path, args..., NULL)
                                                     in the child, wait *)
| System (command : string).                      (* system(command) *)

Record world : Type := {
  geteuid : Z;
  (* access(path, F_OK) == 0 *)
  access : string -> bool;
  (* bytes a heap object has behind the [n] bytes that were requested;
     [fun _ => 0] is the C abstract machine, a real allocator rounds up *)
  slack : nat -> nat;
  (* the C string that the memory of the [k]-th character block handed out
     by malloc happens to hold (malloc does not clear memory) *)
  junk : nat -> string;
  (* the value the uninitialised local [body_end_len] happens to hold *)
  body_end_len : Z;
  (* fork() returns a negative value in run_prog *)
  fork_fails : bool;
  (* the status word waitpid stores for the child that ran
     execv(path, argv) *)
  waitpid : string -> list (option string) -> Z;
  (* the value system(command) returns *)
  system : string -> Z
}.

(** config.h is not part of the sources: the two macros the program takes
    from it are parameters. *)
Record config : Type := {
  NOTIFY_SEND_TIMEOUT : string;
  NOTIFY_SEND_URGENCY : string
}.

Definition is_launch (e : event) : bool :=
  match e with
  | Execv _ _ | Execl _ _ | System _ => true
  | Stderr _ | Perror _ => false
  end.

(** The child processes a run started. *)
Definition launches (tr : list event) : list event := filter is_launch tr.

(** notify-send is called with the summary and the body as its last two
    arguments. *)
Definition notification_of (e : event) : option (string * string) :=
  match e with
  | Execl _ args =>
      match rev args with
      | body :: summary :: _ => Some (summary, body)
      | _ => None
      end
  | _ => None
  end.

Fixpoint notifications (tr : list event) : list (string * string) :=
  match tr with
  | [] => []
  | e :: tr' =>
      match notification_of e with
      | Some n => n :: notifications tr'
      | None => notifications tr'
      end
  end.

(** ** The C library, as far as the program uses it *)

Definition nl : string := String "010"%char EmptyString.

(** A character array on the heap: its size in bytes and the C string it
    holds (the bytes before the first NUL). *)
Record chars : Type := { cap : nat; text : string }.

(** malloc(n) for the [k]-th character block: not cleared. *)
Definition malloc (w : world) (k n : nat) : chars :=
  {| cap := n + slack w n; text := junk w k |}.

(** strcat(dest, src) writes src and its NUL behind the string dest holds. *)
Definition strcat (dest : chars) (src : string) : outcome chars :=
  if (String.length (text dest) + String.length src + 1 <=? cap dest)%nat
  then Returned {| cap := cap dest; text := text dest ++ src |}
  else Undefined.

(** snprintf(buf, size, ...) with [size >= 1]: the first [size - 1]
    characters of the formatted text, then NUL. *)
Definition snprintf (size : nat) (formatted : string) : string :=
  substring 0 (size - 1) formatted.

(** printf's %d. *)
Definition string_of_int (n : Z) : string :=
  NilEmpty.string_of_int (Z.to_int n).

(** <sys/wait.h> *)
Definition WEXITSTATUS (status : Z) : Z := Z.shiftr (Z.land status 65280) 8.

(** The status word of a child that called exit(code). *)
Definition W_EXITCODE (code : Z) : Z := Z.shiftl code 8.

(** The exit status the parent of this process sees when main returns
    [ret]: its low eight bits. *)
Definition exit_status (ret : Z) : Z := Z.land ret 255.

(** An array of [char *] on the heap: the whole pointer-sized cells of the
    object.  A cell is indeterminate until it is stored to. *)
Inductive slot : Type :=
| Indet
| Ptr (p : option string).   (* [None] is NULL *)

Definition sizeof_ptr : nat := 8.

Definition slots (w : world) (n : nat) : nat := (n + slack w n) / sizeof_ptr.

Definition malloc_ptrs (w : world) (n : nat) : list slot :=
  repeat Indet (slots w n).

(** realloc keeps the cells that fit the new size. *)
Definition realloc (w : world) (b : list slot) (n : nat) : list slot :=
  let k := slots w n in
  (firstn k b ++ repeat Indet (k - List.length b))%list.

(** b[i] = v *)
Definition store (b : list slot) (i : nat) (v : option string)
  : outcome (list slot) :=
  if (i <? List.length b)%nat
  then Returned (firstn i b ++ Ptr v :: skipn (S i) b)%list
  else Undefined.

(** The vector execv reads: the cells up to the first NULL. *)
Fixpoint read_argv (b : list slot) : outcome (list (option string)) :=
  match b with
  | [] => Undefined
  | Indet :: _ => Undefined
  | Ptr None :: _ => Returned [None]
  | Ptr (Some s) :: b' => v <- read_argv b' ;; Returned (Some s :: v)
  end.

Definition DEFAULT_BINDIR_PREFIX : string := "/bin/".
Definition NOTIFY_SEND_BINLOC : string := DEFAULT_BINDIR_PREFIX ++ "notify-send".
Definition SUCCESS_SUMMARY : string := "Success".
Definition FAILURE_SUMMARY : string := "Error".

(** ** The argument vector (main, both fork/execv variants)

    [argbuf] starts as one cell holding argv[1]; the loop grows it by one
    cell per argument; the last realloc makes room for the NULL. *)

Fixpoint main_argbuf_loop (w : world) (args : list string) (i : nat)
    (argbuf_entries : nat) (argbuf : list slot)
  : outcome (nat * list slot) :=
  match args with
  | [] => Returned (argbuf_entries, argbuf)
  | arg :: args' =>
      let argbuf_entries := S argbuf_entries in
      let newsize := argbuf_entries * sizeof_ptr in
      let argbuf := realloc w argbuf newsize in
      argbuf <- store argbuf (i - 1) (Some arg) ;;
      main_argbuf_loop w args' (S i) argbuf_entries argbuf
  end.

Definition main_argbuf (w : world) (argv : list string) : outcome (list slot) :=
  let argbuf := malloc_ptrs w sizeof_ptr in
  argbuf <- store argbuf 0 (Some (nth 1 argv "")) ;;
  '(argbuf_entries, argbuf) <- main_argbuf_loop w (skipn 2 argv) 2 1 argbuf ;;
  let argbuf := realloc w argbuf (sizeof_ptr + (argbuf_entries + 1)) in
  store argbuf argbuf_entries None.

(** ** cmdnotify.c, second variant *)

Module Cmd.

(** The [k]-th character block of the run holds the path. *)
Definition create_progpath (w : world) (k : nat) (progname : string)
  : outcome chars :=
  let pathlen := String.length DEFAULT_BINDIR_PREFIX in
  (* Allocate our path *)
  let pathlen := pathlen + String.length progname in
  let progpath := malloc w k (pathlen + 1) in
  (* Create the full path *)
  progpath <- strcat progpath DEFAULT_BINDIR_PREFIX ;;
  progpath <- strcat progpath progname ;;
  Returned progpath.

Definition prog_exists (w : world) (progname : string) : outcome bool :=
  path <- create_progpath w 0 progname ;;
  let exists_ := access w (text path) in
  Returned exists_.

(** Runs the program, returns its status code.  The child reads the path and
    the vector; the parent waits and takes the exit code out of the status
    word. *)
Definition run_prog (w : world) (progname : string) (argv : list slot)
  : outcome (Z * list event) :=
  progpath <- create_progpath w 1 progname ;;
  if fork_fails w then Aborted            (* assert(child >= 0) *)
  else
    vector <- read_argv argv ;;
    let status := waitpid w (text progpath) vector in
    Returned (WEXITSTATUS status, [Execv (text progpath) vector]).

Definition notify (cfg : config) (summary body : string) : list event :=
  [Execl NOTIFY_SEND_BINLOC
     [NOTIFY_SEND_BINLOC; "-t"; NOTIFY_SEND_TIMEOUT cfg; "-u";
      NOTIFY_SEND_URGENCY cfg; summary; body]].

Definition MAX_BODY_BUFSIZE : nat := 256.

(** The value of [summary] when notify is called. *)
Definition notify_status_summary (status : Z) : string :=
  if (status =? 0)%Z then SUCCESS_SUMMARY else FAILURE_SUMMARY.

(** The text "'%s' returned %d" stands for. *)
Definition notify_status_message (status : Z) (cmd : string) : string :=
  "'" ++ cmd ++ "' returned " ++ string_of_int status.

(** The value of [body] when notify is called: the block has
    MAX_BODY_BUFSIZE + strlen(cmd) bytes, snprintf is told MAX_BODY_BUFSIZE. *)
Definition notify_status_body (status : Z) (cmd : string) : string :=
  snprintf MAX_BODY_BUFSIZE (notify_status_message status cmd).

Definition notify_status (cfg : config) (status : Z) (cmd : string)
  : list event :=
  notify cfg (notify_status_summary status) (notify_status_body status cmd).

Definition main (cfg : config) (w : world) (argv : list string)
  : outcome (Z * list event) :=
  let argc := List.length argv in
  if (argc <? 2)%nat then
    Returned (1%Z, [Stderr ("Error: Too few arguments!" ++ nl)])
  else if (geteuid w =? 0)%Z then
    Returned (1%Z, [Stderr ("Please do not run as root." ++ nl)])
  else if negb (access w "/bin/notify-send") then
    Returned (1%Z, [Stderr ("Error: notify-send not found!" ++ nl)])
  else
    let argv1 := nth 1 argv "" in
    found <- prog_exists w argv1 ;;
    if negb found then
      Returned (1%Z, [Stderr ("Failed to execute " ++ DEFAULT_BINDIR_PREFIX
                                ++ argv1 ++ nl);
                      Perror "access"])
    else
      argbuf <- main_argbuf w argv ;;
      (* Run the command and report the status! *)
      '(status, ran) <- run_prog w argv1 argbuf ;;
      Returned (status, (ran ++ notify_status cfg status argv1)%list).

End Cmd.

(** ** unnamed/part_000 *)

Module Exec0.

Definition NOTIFY_SEND_TIMEOUT : string := "3500".

Definition run_prog (w : world) (progname : string) (argv : list slot)
  : outcome (Z * list event) :=
  let pathlen := String.length DEFAULT_BINDIR_PREFIX in
  (* Allocate our path *)
  let pathlen := pathlen + String.length progname in
  let progpath := malloc w 0 (pathlen + 1) in
  (* Create the full path *)
  progpath <- strcat progpath DEFAULT_BINDIR_PREFIX ;;
  progpath <- strcat progpath progname ;;
  if fork_fails w then Aborted            (* assert(child >= 0) *)
  else
    vector <- read_argv argv ;;
    let status := waitpid w (text progpath) vector in
    Returned (WEXITSTATUS status, [Execv (text progpath) vector]).

Definition notify (summary body : string) : list event :=
  [Execl NOTIFY_SEND_BINLOC
     [NOTIFY_SEND_BINLOC; "-t"; NOTIFY_SEND_TIMEOUT; summary; body]].

Definition body_end_success : string := "has finished and returned 0" ++ nl.
Definition body_end_fail : string := "has returned non-zero value" ++ nl.

Definition notify_status_body_end (status : Z) : string :=
  if (status =? 0)%Z then body_end_success else body_end_fail.

Definition notify_status_summary (status : Z) : string :=
  if (status =? 0)%Z then SUCCESS_SUMMARY else FAILURE_SUMMARY.

(** The value of [body_len] when snprintf is called. *)
Definition notify_status_body_len (status : Z) (cmd : string) : nat :=
  let body_len := String.length cmd + 2 in         (* Add 2 for quote pair *)
  body_len + (String.length (notify_status_body_end status) + 1).
                                                   (* Add 1 for '\0' *)

(** The text the format string and its two arguments stand for. *)
Definition notify_status_message (status : Z) (cmd : string) : string :=
  "'" ++ cmd ++ "' " ++ notify_status_body_end status ++ nl.

Definition notify_status_body (status : Z) (cmd : string) : string :=
  snprintf (notify_status_body_len status cmd)
           (notify_status_message status cmd).

(** calloc is asked for body_len + body_end_len bytes, a size_t sum with the
    uninitialised [body_end_len]; snprintf then writes body_len bytes. *)
Definition notify_status (w : world) (status : Z) (cmd : string)
  : outcome (list event) :=
  let body_len := notify_status_body_len status cmd in
  let size := ((Z.of_nat body_len + body_end_len w) mod 2 ^ 64)%Z in
  if (Z.of_nat body_len <=? size + Z.of_nat (slack w (Z.to_nat size)))%Z
  then Returned (notify (notify_status_summary status)
                        (notify_status_body status cmd))
  else Undefined.

Definition main (w : world) (argv : list string) : outcome (Z * list event) :=
  let argc := List.length argv in
  if (argc <? 2)%nat then
    Returned (1%Z, [Stderr ("Error: Too few arguments!" ++ nl)])
  else if negb (access w "/bin/notify-send") then
    Returned (1%Z, [Stderr ("Error: notify-send not found!" ++ nl)])
  else
    let argv1 := nth 1 argv "" in
    argbuf <- main_argbuf w argv ;;
    (* Run the command and report the status! *)
    '(status, ran) <- run_prog w argv1 argbuf ;;
    sent <- notify_status w status argv1 ;;
    Returned (status, (ran ++ sent)%list).

End Exec0.

(** ** cmdnotify.c, first variant *)

Module Sys.

(** append(&dest_ptr, src, src_len): [dest] is what has been written before
    dest_ptr so far. *)
Definition append (dest src : string) (src_len : nat) : string :=
  dest ++ substring 0 src_len src.

Definition space_chr : string := " ".

(** The second loop of main; the first one sizes the buffer for exactly
    these bytes and the closing NUL. *)
Fixpoint main_cmdbuf (args : list string) (cmdbuf : string) : string :=
  match args with
  | [] => cmdbuf
  | arg :: args' =>
      let cmdbuf := append cmdbuf arg (String.length arg) in
      let cmdbuf := append cmdbuf space_chr 1 in
      main_cmdbuf args' cmdbuf
  end.

(** notify and notify_status have the text of unnamed/part_000. *)
Definition notify := Exec0.notify.
Definition notify_status := Exec0.notify_status.

Definition main (w : world) (argv : list string) : outcome (Z * list event) :=
  let argc := List.length argv in
  if (argc <? 2)%nat then
    Returned (1%Z, [Stderr ("Error: Too few arguments!" ++ nl)])
  else if negb (access w "/bin/notify-send") then
    Returned (1%Z, [Stderr ("Error: notify-send not found!" ++ nl)])
  else
    let cmdbuf := main_cmdbuf (skipn 1 argv) "" in
    (* Run the command and report the status! *)
    let status := system w cmdbuf in
    sent <- notify_status w status (nth 1 argv "") ;;
    Returned (status, (System cmdbuf :: sent)%list).

End Sys.

(** ** cmdnotify.c, first variant: the command buffer as a heap object

    The same two loops of main and the same append, now with the size of
    the buffer: [text] is what has been written before cmdbuf_ptr, [cap] the
    size of the object cmdbuf points to. *)

Module SysBuf.

(** A copy that writes past the end of the buffer, or takes more than the
    characters of [src], is undefined (main passes strlen(src), and 1 for
    the one-character object space_chr). *)
Definition append (dest : chars) (src : string) (src_len : nat)
  : outcome chars :=
  if ((src_len <=? String.length src)
      && (String.length (text dest) + src_len <=? cap dest))%nat
  then Returned {| cap := cap dest;
                   text := text dest ++ substring 0 src_len src |}
  else Undefined.

(** Compute the size of the arg buffer *)
Fixpoint main_cmdbuf_len (args : list string) (cmdbuf_len : nat) : nat :=
  match args with
  | [] => cmdbuf_len
  | arg :: args' => main_cmdbuf_len args' (cmdbuf_len + (String.length arg + 1))
  end.

(** Append arguments to the command buffer *)
Fixpoint main_cmdbuf_fill (args : list string) (cmdbuf : chars)
  : outcome chars :=
  match args with
  | [] => Returned cmdbuf
  | arg :: args' =>
      cmdbuf <- append cmdbuf arg (String.length arg) ;;
      cmdbuf <- append cmdbuf Sys.space_chr 1 ;;
      main_cmdbuf_fill args' cmdbuf
  end.

(** From [cmdbuf_len = 0] to the closing NUL: the string system() is
    given. *)
Definition main_cmdbuf (w : world) (argv : list string) : outcome string :=
  let cmdbuf_len := main_cmdbuf_len (skipn 1 argv) 0 in
  let cmdbuf := {| cap := cmdbuf_len + 1 + slack w (cmdbuf_len + 1);
                   text := "" |} in               (* Add 1 for '\0' *)
  cmdbuf <- main_cmdbuf_fill (skipn 1 argv) cmdbuf ;;
  (* Null terminate command buffer *)
  if (String.length (text cmdbuf) <? cap cmdbuf)%nat
  then Returned (text cmdbuf)
  else Undefined.

End SysBuf.

(** ** Sample environments *)

(** An allocator that rounds a request up the way a 64-bit malloc with
    16-byte chunks and an 8-byte header does: at least 24 usable bytes. *)
Definition chunk_slack (n : nat) : nat :=
  Nat.max 32 ((n + 8 + 15) / 16 * 16) - 8 - n.

(** An ordinary user on a system whose files are the ones under /bin/,
    fresh zeroed memory, fork works, every child exits with [code]. *)
Definition desktop (code : Z) : world :=
  {| geteuid := 1000;
     access := fun path => prefix "/bin/" path;
     slack := chunk_slack;
     junk := fun _ => "";
     body_end_len := 0;
     fork_fails := false;
     waitpid := fun _ _ => W_EXITCODE code;
     system := fun _ => W_EXITCODE code |}.

(** The same world with heap objects of exactly the requested size. *)
Definition exact (w : world) : world :=
  {| geteuid := geteuid w;
     access := access w;
     slack := fun _ => 0;
     junk := junk w;
     body_end_len := body_end_len w;
     fork_fails := fork_fails w;
     waitpid := waitpid w;
     system := system w |}.

(** The same world where malloc, from the second character block on, hands
    out recycled memory that still holds the text [old]. *)
Definition recycled (old : string) (w : world) : world :=
  {| geteuid := geteuid w;
     access := access w;
     slack := slack w;
     junk := fun k => match k with 0 => junk w 0 | S _ => old end;
     body_end_len := body_end_len w;
     fork_fails := fork_fails w;
     waitpid := waitpid w;
     system := system w |}.

(** The same world for the superuser. *)
Definition as_root (w : world) : world :=
  {| geteuid := 0;
     access := access w;
     slack := slack w;
     junk := junk w;
     body_end_len := body_end_len w;
     fork_fails := fork_fails w;
     waitpid := waitpid w;
     system := system w |}.

(** The same world with no file at [missing]. *)
Definition without (missing : string) (w : world) : world :=
  {| geteuid := geteuid w;
     access := fun path => if path =? missing then false else access w path;
     slack := slack w;
     junk := junk w;
     body_end_len := body_end_len w;
     fork_fails := fork_fails w;
     waitpid := waitpid w;
     system := system w |}.

Definition cfg0 : config :=
  {| NOTIFY_SEND_TIMEOUT := "3500"; NOTIFY_SEND_URGENCY := "normal" |}.

Fixpoint replicate (n : nat) (c : ascii) : string :=
  match n with
  | 0 => EmptyString
  | S n' => String c (replicate n' c)
  end.

(** The invocations the examples below run. *)
Definition argv_ls : list string := ["cmdnotify"; "ls"].
Definition argv_sleep : list string := ["cmdnotify"; "sleep"; "1"].
Definition argv_ls_l_tmp : list string := ["cmdnotify"; "ls"; "-l"; "/tmp"].
Definition long_name : string := replicate 250 "a".


(** The same world where every child leaves the status word [status]. *)
Definition with_status (status : Z) (w : world) : world :=
  {| geteuid := geteuid w;
     access := access w;
     slack := slack w;
     junk := junk w;
     body_end_len := body_end_len w;
     fork_fails := fork_fails w;
     waitpid := fun _ _ => status;
     system := fun _ => status |}.

(** The status word of a child that was killed by signal 11 and dumped
    core. *)
Definition segv_status : Z := 139.

(** Every element of [l] followed by a space. *)
Fixpoint spaced (l : list string) : string :=
  match l with
  | [] => ""
  | a :: l' => a ++ " " ++ spaced l'
  end.

(** Whether the character [c] occurs in [s]. *)
Fixpoint has_char (c : ascii) (s : string) : bool :=
  match s with
  | EmptyString => false
  | String x s' => Ascii.eqb c x || has_char c s'
  end.

Definition LF : ascii := "010"%char.

(** * Properties *)

(** ** Status words and exit statuses *)

Lemma WEXITSTATUS_W_EXITCODE (code : Z) :
  (0 <= code < 256)%Z -> WEXITSTATUS (W_EXITCODE code) = code.
Proof.
  intros H. unfold WEXITSTATUS, W_EXITCODE.
  change 65280%Z with (Z.shiftl 255 8).
  rewrite <- Z.shiftl_land, Z.shiftr_shiftl_l by lia.
  change (8 - 8)%Z with 0%Z. rewrite Z.shiftl_0_r.
  change 255%Z with (Z.ones 8).
  rewrite Z.land_ones by lia.
  apply Z.mod_small. exact H.
Qed.

Lemma WEXITSTATUS_range (status : Z) : (0 <= WEXITSTATUS status < 256)%Z.
Proof.
  unfold WEXITSTATUS.
  rewrite Z.shiftr_land.
  change (Z.shiftr 65280 8) with (Z.ones 8).
  rewrite Z.land_ones by lia.
  apply Z.mod_pos_bound. reflexivity.
Qed.

Lemma exit_status_small (ret : Z) : (0 <= ret < 256)%Z -> exit_status ret = ret.
Proof.
  intros H. unfold exit_status.
  change 255%Z with (Z.ones 8).
  rewrite Z.land_ones by lia.
  apply Z.mod_small. exact H.
Qed.

(** A status word of an exit code has nothing in its low byte. *)
Lemma exit_status_W_EXITCODE (code : Z) : exit_status (W_EXITCODE code) = 0%Z.
Proof.
  unfold exit_status, W_EXITCODE.
  change 255%Z with (Z.ones 8).
  rewrite Z.land_ones, Z.shiftl_mul_pow2 by lia.
  apply Z.mod_mul. discriminate.
Qed.

(** ** Strings *)

Lemma length_append (a b : string) :
  String.length (a ++ b) = String.length a + String.length b.
Proof.
  induction a as [|c a IH]; cbn; [reflexivity | now rewrite IH].
Qed.

Lemma append_assoc (a b c : string) : (a ++ b) ++ c = a ++ b ++ c.
Proof.
  induction a as [|x a IH]; cbn; [reflexivity | now rewrite IH].
Qed.

(** A bound that the text does not reach cuts nothing off. *)
Lemma substring_whole (n : nat) (s : string) :
  String.length s <= n -> substring 0 n s = s.
Proof.
  revert n. induction s as [|c s IH]; intros [|n] H; cbn in *;
    try reflexivity; try lia.
  f_equal. apply IH. lia.
Qed.

(** A bound inside the text keeps exactly the characters before it. *)
Lemma substring_front (a b : string) :
  substring 0 (String.length a) (a ++ b) = a.
Proof.
  induction a as [|c a IH]; cbn.
  - destruct b; reflexivity.
  - now rewrite IH.
Qed.

Lemma length_substring (n : nat) (s : string) :
  String.length (substring 0 n s) = Nat.min n (String.length s).
Proof.
  revert n. induction s as [|c s IH]; intros [|n]; cbn; try reflexivity.
  now rewrite IH.
Qed.

(** ** Heap objects *)

Lemma realloc_length (w : world) (b : list slot) (n : nat) :
  List.length (realloc w b n) = slots w n.
Proof.
  unfold realloc. rewrite length_app, length_firstn, repeat_length. lia.
Qed.

(** realloc keeps the cells in front that both objects have. *)
Lemma realloc_firstn (w : world) (b : list slot) (n j : nat) :
  j <= List.length b -> j <= slots w n ->
  firstn j (realloc w b n) = firstn j b.
Proof.
  intros Hb Hn. unfold realloc.
  rewrite firstn_app, length_firstn, firstn_firstn.
  replace (Nat.min j (slots w n)) with j by lia.
  replace (j - Nat.min (slots w n) (List.length b)) with 0 by lia.
  cbn. apply app_nil_r.
Qed.

Lemma store_inv (b b' : list slot) (i : nat) (v : option string) :
  store b i v = Returned b' ->
  i < List.length b /\ b' = (firstn i b ++ Ptr v :: skipn (S i) b)%list.
Proof.
  unfold store. destruct (Nat.ltb_spec i (List.length b)); [|discriminate].
  intros [= <-]. split; [assumption | reflexivity].
Qed.

Lemma store_in_bounds (b : list slot) (i : nat) (v : option string) :
  i < List.length b ->
  store b i v = Returned (firstn i b ++ Ptr v :: skipn (S i) b)%list.
Proof.
  intros H. unfold store.
  destruct (Nat.ltb_spec i (List.length b)); [reflexivity | lia].
Qed.

Lemma store_out_of_bounds (b : list slot) (i : nat) (v : option string) :
  List.length b <= i -> store b i v = Undefined.
Proof.
  intros H. unfold store.
  destruct (Nat.ltb_spec i (List.length b)); [lia | reflexivity].
Qed.

Lemma stored_length (b : list slot) (i : nat) (v : option string) :
  i < List.length b ->
  List.length (firstn i b ++ Ptr v :: skipn (S i) b)%list = List.length b.
Proof.
  intros H. rewrite length_app, length_firstn. cbn [List.length].
  rewrite length_skipn. lia.
Qed.

Lemma stored_firstn (b : list slot) (i : nat) (v : option string) :
  i < List.length b ->
  firstn (S i) (firstn i b ++ Ptr v :: skipn (S i) b)%list
  = (firstn i b ++ [Ptr v])%list.
Proof.
  intros H.
  rewrite firstn_app, length_firstn.
  replace (Nat.min i (List.length b)) with i by lia.
  replace (S i - i) with 1 by lia.
  rewrite firstn_all2 by (rewrite length_firstn; lia).
  reflexivity.
Qed.

(** A vector of strings closed by NULL reads back as it was written,
    whatever lies behind the NULL. *)
Lemma read_argv_terminated (l : list string) (rest : list slot) :
  read_argv (map (fun s => Ptr (Some s)) l ++ Ptr None :: rest)%list
  = Returned (map Some l ++ [None])%list.
Proof.
  induction l as [|s l IH]; cbn; [reflexivity|].
  rewrite IH. reflexivity.
Qed.

(** ** The argument vector *)

(** The loop keeps what has been stored in front and appends the remaining
    arguments in their order. *)
Lemma main_argbuf_loop_inv (w : world) (args : list string) :
  forall (done : list string) (n : nat) (argbuf argbuf' : list slot),
    firstn (List.length done) argbuf = map (fun s => Ptr (Some s)) done ->
    List.length done <= List.length argbuf ->
    main_argbuf_loop w args (S (List.length done)) (List.length done) argbuf
      = Returned (n, argbuf') ->
    n = List.length (done ++ args)%list /\
    n <= List.length argbuf' /\
    firstn n argbuf' = map (fun s => Ptr (Some s)) (done ++ args)%list.
Proof.
  induction args as [|arg args IH]; intros done n argbuf argbuf' Hfront Hlen Hrun.
  - cbn in Hrun. injection Hrun as <- <-.
    rewrite app_nil_r. auto.
  - cbn [main_argbuf_loop] in Hrun.
    replace (S (List.length done) - 1) with (List.length done) in Hrun by lia.
    set (b1 := realloc w argbuf (S (List.length done) * sizeof_ptr)) in *.
    destruct (store b1 (List.length done) (Some arg)) as [b2| |] eqn:Hst;
      cbn [bind] in Hrun; try discriminate.
    apply store_inv in Hst. destruct Hst as [Hin ->].
    assert (Hk : List.length done < slots w (S (List.length done) * sizeof_ptr))
      by (subst b1; rewrite realloc_length in Hin; exact Hin).
    assert (Hb1 : firstn (List.length done) b1 = map (fun s => Ptr (Some s)) done).
    { subst b1. rewrite realloc_firstn by lia. exact Hfront. }
    specialize (IH (done ++ [arg])%list n
                  (firstn (List.length done) b1
                     ++ Ptr (Some arg) :: skipn (S (List.length done)) b1)%list
                  argbuf').
    rewrite length_app in IH. cbn [List.length] in IH.
    replace (List.length done + 1) with (S (List.length done)) in IH by lia.
    rewrite <- app_assoc in IH. cbn [app] in IH.
    apply IH.
    + rewrite stored_firstn by exact Hin.
      rewrite Hb1, map_app. reflexivity.
    + rewrite stored_length by exact Hin. lia.
    + exact Hrun.
Qed.

(** The count only grows. *)
Lemma main_argbuf_loop_entries (w : world) (args : list string) :
  forall (i entries n : nat) (argbuf argbuf' : list slot),
    main_argbuf_loop w args i entries argbuf = Returned (n, argbuf') ->
    entries <= n.
Proof.
  induction args as [|arg args IH]; intros i entries n argbuf argbuf' Hrun.
  - cbn in Hrun. injection Hrun as <- _. lia.
  - cbn [main_argbuf_loop] in Hrun.
    destruct (store _ (i - 1) (Some arg)) as [b2| |]; cbn [bind] in Hrun;
      try discriminate.
    apply IH in Hrun. lia.
Qed.

(** The loop has no assertion to fail. *)
Lemma main_argbuf_loop_not_aborted (w : world) (args : list string) :
  forall (i entries : nat) (argbuf : list slot),
    main_argbuf_loop w args i entries argbuf <> Aborted.
Proof.
  induction args as [|arg args IH]; intros i entries argbuf; cbn [main_argbuf_loop].
  - discriminate.
  - unfold store at 1.
    destruct (Nat.ltb _ _); cbn [bind]; [apply IH | discriminate].
Qed.

(** When every store stays inside the object, the child is handed argv[1],
    the remaining arguments in their order, and NULL. *)
Lemma main_argbuf_vector (w : world) (argv : list string) (argbuf : list slot) :
  2 <= List.length argv ->
  main_argbuf w argv = Returned argbuf ->
  read_argv argbuf = Returned (map Some (tl argv) ++ [None])%list.
Proof.
  intros Hargc Hrun.
  destruct argv as [|tool [|prog args]]; cbn [List.length] in Hargc; try lia.
  unfold main_argbuf in Hrun. cbn [nth skipn tl] in *.
  destruct (store (malloc_ptrs w sizeof_ptr) 0 (Some prog)) as [b0| |] eqn:H0;
    cbn [bind] in Hrun; try discriminate.
  apply store_inv in H0. destruct H0 as [Hin0 ->].
  destruct (main_argbuf_loop w args 2 1 _) as [[n b1]| |] eqn:Hloop;
    cbn [bind] in Hrun; try discriminate.
  apply (main_argbuf_loop_inv w args [prog]) in Hloop.
  - destruct Hloop as (Hn & Hlen & Hfront).
    apply store_inv in Hrun. destruct Hrun as [Hin ->].
    rewrite realloc_length in Hin.
    rewrite realloc_firstn by lia.
    rewrite Hfront. cbn [app]. apply read_argv_terminated.
  - cbn [List.length firstn app map]. destruct (malloc_ptrs w sizeof_ptr); reflexivity.
  - cbn [List.length]. rewrite stored_length by exact Hin0. lia.
Qed.

(** The object the last realloc returns has room for the NULL only through
    the allocator's slack. *)
Lemma main_argbuf_needs_slack (w : world) (argv : list string) :
  (forall n, slack w n = 0) -> main_argbuf w argv = Undefined.
Proof.
  intros Hexact. unfold main_argbuf.
  assert (Hone : malloc_ptrs w sizeof_ptr = [Indet]).
  { unfold malloc_ptrs, slots. rewrite Hexact. reflexivity. }
  rewrite Hone. cbn [store List.length Nat.ltb Nat.leb bind firstn skipn app].
  destruct (main_argbuf_loop w _ 2 1 _) as [[n b1]| |] eqn:Hloop;
    cbn [bind]; try reflexivity.
  2: { exfalso. exact (main_argbuf_loop_not_aborted _ _ _ _ _ Hloop). }
  apply main_argbuf_loop_entries in Hloop.
  apply store_out_of_bounds. rewrite realloc_length.
  unfold slots. rewrite Hexact. unfold sizeof_ptr.
  apply Nat.lt_succ_r, Nat.Div0.div_lt_upper_bound. lia.
Qed.

Lemma slots_whole (w : world) (n : nat) : n <= slots w (n * sizeof_ptr).
Proof.
  unfold slots, sizeof_ptr.
  apply Nat.div_le_lower_bound; lia.
Qed.

(** Every store of the loop is inside the object the realloc before it
    returned. *)
Lemma main_argbuf_loop_returns (w : world) (args : list string) :
  forall (entries : nat) (argbuf : list slot),
    exists argbuf',
      main_argbuf_loop w args (S entries) entries argbuf
        = Returned (entries + List.length args, argbuf').
Proof.
  induction args as [|arg args IH]; intros entries argbuf; cbn [main_argbuf_loop].
  - exists argbuf. cbn [List.length]. rewrite Nat.add_0_r. reflexivity.
  - replace (S entries - 1) with entries by lia.
    rewrite store_in_bounds
      by (rewrite realloc_length; pose proof (slots_whole w (S entries)); lia).
    cbn [bind List.length].
    destruct (IH (S entries)
                 (firstn entries (realloc w argbuf (S entries * sizeof_ptr))
                    ++ Ptr (Some arg)
                    :: skipn (S entries)
                         (realloc w argbuf (S entries * sizeof_ptr)))%list)
      as [b Hb].
    exists b. rewrite Hb. f_equal. f_equal. lia.
Qed.

(** The vector is built exactly when the object the last realloc returns
    has a cell for the NULL. *)
Lemma main_argbuf_returns (w : world) (argv : list string) :
  2 <= List.length argv ->
  List.length argv - 1 < slots w (sizeof_ptr + List.length argv) ->
  exists argbuf, main_argbuf w argv = Returned argbuf.
Proof.
  intros Hargc Hroom.
  destruct argv as [|tool [|prog args]]; cbn [List.length] in *; try lia.
  unfold main_argbuf. cbn [nth skipn].
  rewrite store_in_bounds.
  2: { unfold malloc_ptrs. rewrite repeat_length.
       pose proof (slots_whole w 1) as H. cbn in H. exact H. }
  cbn [bind].
  destruct (main_argbuf_loop_returns w args 1
              (firstn 0 (malloc_ptrs w sizeof_ptr)
                 ++ Ptr (Some prog) :: skipn 1 (malloc_ptrs w sizeof_ptr))%list)
    as [b Hb].
  rewrite Hb. cbn [bind].
  rewrite store_in_bounds.
  - eexists. reflexivity.
  - rewrite realloc_length.
    replace (sizeof_ptr + (1 + List.length args + 1))
      with (sizeof_ptr + S (S (List.length args))) by lia.
    lia.
Qed.

(** ** The path of a program *)

(** create_progpath appends to whatever string the fresh block holds: the
    result is that string, the prefix and the name, and it fits the block
    only if the old string fits the allocator's slack. *)
Lemma create_progpath_spec (w : world) (k : nat) (progname : string) :
  Cmd.create_progpath w k progname
  = if (String.length (junk w k) <=? slack w (6 + String.length progname))%nat
    then Returned {| cap := 6 + String.length progname
                            + slack w (6 + String.length progname);
                     text := (junk w k ++ "/bin/") ++ progname |}
    else Undefined.
Proof.
  unfold Cmd.create_progpath, strcat, malloc. cbn [cap text].
  change (String.length DEFAULT_BINDIR_PREFIX) with 5.
  replace (5 + String.length progname + 1) with (6 + String.length progname) by lia.
  destruct (Nat.leb_spec (String.length (junk w k))
                         (slack w (6 + String.length progname))) as [Hfit|Hbig].
  - destruct (Nat.leb_spec (String.length (junk w k) + 5 + 1)
                (6 + String.length progname + slack w (6 + String.length progname)));
      [|lia].
    cbn [bind cap text]. rewrite length_append.
    change (String.length DEFAULT_BINDIR_PREFIX) with 5.
    destruct (Nat.leb_spec (String.length (junk w k) + 5 + String.length progname + 1)
                (6 + String.length progname + slack w (6 + String.length progname)));
      [reflexivity | lia].
  - destruct (Nat.leb_spec (String.length (junk w k) + 5 + 1)
                (6 + String.length progname + slack w (6 + String.length progname)));
      [|reflexivity].
    cbn [bind cap text]. rewrite length_append.
    change (String.length DEFAULT_BINDIR_PREFIX) with 5.
    destruct (Nat.leb_spec (String.length (junk w k) + 5 + String.length progname + 1)
                (6 + String.length progname + slack w (6 + String.length progname)));
      [lia | reflexivity].
Qed.

(** On memory that holds the empty string the path is the prefix and the
    name. *)
Lemma create_progpath_clean (w : world) (k : nat) (progname : string) :
  junk w k = "" ->
  exists path, Cmd.create_progpath w k progname = Returned path
               /\ text path = "/bin/" ++ progname.
Proof.
  intros Hclean. rewrite create_progpath_spec, Hclean.
  cbn [String.length Nat.leb]. eexists. split; reflexivity.
Qed.

Lemma create_progpath_not_aborted (w : world) (k : nat) (progname : string) :
  Cmd.create_progpath w k progname <> Aborted.
Proof.
  rewrite create_progpath_spec. destruct (Nat.leb _ _); discriminate.
Qed.

(** ** The formatter *)

Lemma cmd_message_length (status : Z) (cmd : string) :
  String.length (Cmd.notify_status_message status cmd)
  = String.length cmd + 12 + String.length (string_of_int status).
Proof.
  unfold Cmd.notify_status_message.
  cbn [append String.length]. rewrite !length_append. cbn [String.length]. lia.
Qed.

(** A message of at most 255 characters is sent whole. *)
Lemma cmd_body_whole (status : Z) (cmd : string) :
  String.length cmd + 12 + String.length (string_of_int status) <= 255 ->
  Cmd.notify_status_body status cmd = Cmd.notify_status_message status cmd.
Proof.
  intros H. unfold Cmd.notify_status_body, snprintf.
  apply substring_whole. rewrite cmd_message_length.
  unfold Cmd.MAX_BODY_BUFSIZE. lia.
Qed.

(** A longer one is cut to its first 255 characters. *)
Lemma cmd_body_cut (status : Z) (cmd : string) :
  255 < String.length cmd + 12 + String.length (string_of_int status) ->
  String.length (Cmd.notify_status_body status cmd) = 255.
Proof.
  intros H. unfold Cmd.notify_status_body, snprintf.
  rewrite length_substring, cmd_message_length.
  unfold Cmd.MAX_BODY_BUFSIZE. lia.
Qed.

(** The older formatter counts two characters too few: the body is the
    message without its two closing line feeds. *)
Lemma exec0_body_message (status : Z) (cmd : string) :
  let line := if (status =? 0)%Z then "has finished and returned 0"
              else "has returned non-zero value" in
  Exec0.notify_status_body status cmd = "'" ++ cmd ++ "' " ++ line /\
  Exec0.notify_status_message status cmd
  = Exec0.notify_status_body status cmd ++ nl ++ nl.
Proof.
  intros line.
  unfold Exec0.notify_status_body, Exec0.notify_status_message,
    Exec0.notify_status_body_len, Exec0.notify_status_body_end, snprintf.
  assert (Hend : (if (status =? 0)%Z then Exec0.body_end_success
                  else Exec0.body_end_fail) = line ++ nl)
    by (subst line; destruct (status =? 0)%Z; reflexivity).
  rewrite Hend.
  assert (Hmsg : "'" ++ cmd ++ "' " ++ (line ++ nl) ++ nl
                 = ("'" ++ cmd ++ "' " ++ line) ++ nl ++ nl)
    by (rewrite !append_assoc; reflexivity).
  assert (Hlen : String.length cmd + 2 + (String.length (line ++ nl) + 1) - 1
                 = String.length ("'" ++ cmd ++ "' " ++ line)).
  { cbn [append String.length]. rewrite !length_append.
    cbn [String.length nl]. lia. }
  rewrite Hlen, Hmsg, substring_front.
  split; reflexivity.
Qed.

(** The formatters add no line break: a command text of one line gives a
    body of one line. *)
Lemma has_char_append (c : ascii) (a b : string) :
  has_char c (a ++ b) = has_char c a || has_char c b.
Proof.
  induction a as [|x a IH]; cbn; [reflexivity|].
  now rewrite IH, orb_assoc.
Qed.

Lemma has_char_substring (c : ascii) (n : nat) (s : string) :
  has_char c s = false -> has_char c (substring 0 n s) = false.
Proof.
  revert n. induction s as [|x s IH]; intros [|n] H; cbn in *;
    try reflexivity.
  apply orb_false_iff in H. destruct H as [Hx Hs].
  now rewrite Hx, IH.
Qed.

Lemma string_of_uint_no_LF (d : Decimal.uint) :
  has_char LF (NilEmpty.string_of_uint d) = false.
Proof.
  induction d; cbn; auto.
Qed.

Lemma string_of_int_no_LF (n : Z) : has_char LF (string_of_int n) = false.
Proof.
  unfold string_of_int. destruct (Z.to_int n); cbn;
    apply string_of_uint_no_LF.
Qed.

Lemma cmd_body_single_line (status : Z) (cmd : string) :
  has_char LF cmd = false ->
  has_char LF (Cmd.notify_status_body status cmd) = false.
Proof.
  intros Hcmd. unfold Cmd.notify_status_body, snprintf.
  apply has_char_substring. unfold Cmd.notify_status_message.
  rewrite !has_char_append, Hcmd, string_of_int_no_LF. reflexivity.
Qed.

Lemma exec0_body_single_line (status : Z) (cmd : string) :
  has_char LF cmd = false ->
  has_char LF (Exec0.notify_status_body status cmd) = false.
Proof.
  intros Hcmd.
  destruct (exec0_body_message status cmd) as [-> _].
  rewrite !has_char_append, Hcmd.
  destruct (status =? 0)%Z; reflexivity.
Qed.

(** ** main *)

(** A run of the current main that returns either stopped at a check, with
    status 1 and no child, or ran the target on the vector of its arguments
    and then the notifier, and returns the exit code of the target. *)
Lemma cmd_main_inv (cfg : config) (w : world) (argv : list string)
    (status : Z) (tr : list event) :
  Cmd.main cfg w argv = Returned (status, tr) ->
  (status = 1%Z /\ launches tr = []) \/
  (exists progpath,
      2 <= List.length argv /\
      geteuid w <> 0%Z /\
      access w "/bin/notify-send" = true /\
      Cmd.create_progpath w 1 (nth 1 argv "") = Returned progpath /\
      status = WEXITSTATUS (waitpid w (text progpath)
                                    (map Some (tl argv) ++ [None])%list) /\
      tr = Execv (text progpath) (map Some (tl argv) ++ [None])%list
             :: Cmd.notify_status cfg status (nth 1 argv "")).
Proof.
  unfold Cmd.main.
  destruct (Nat.ltb_spec (List.length argv) 2) as [|Hargc];
    [intros [= <- <-]; left; split; reflexivity|].
  destruct (Z.eqb_spec (geteuid w) 0) as [|Heuid];
    [intros [= <- <-]; left; split; reflexivity|].
  destruct (access w "/bin/notify-send") eqn:Hnotify; cbn [negb];
    [|intros [= <- <-]; left; split; reflexivity].
  destruct (Cmd.prog_exists w (nth 1 argv "")) as [[|]| |];
    cbn [bind negb]; try discriminate;
    [|intros [= <- <-]; left; split; reflexivity].
  destruct (main_argbuf w argv) as [argbuf| |] eqn:Hbuf;
    cbn [bind]; try discriminate.
  apply main_argbuf_vector in Hbuf; [|exact Hargc].
  unfold Cmd.run_prog.
  destruct (Cmd.create_progpath w 1 (nth 1 argv "")) as [progpath| |] eqn:Hpath;
    cbn [bind]; try discriminate.
  destruct (fork_fails w); try discriminate.
  rewrite Hbuf. cbn [bind app].
  intros [= <- <-]. right. exists progpath. repeat split; auto.
Qed.

(** On clean memory, with a cell of slack for the NULL, a target that is
    present and a fork that works, main runs to its end: it starts the
    program under /bin/ on the vector of its arguments, then notify-send,
    and returns the exit code of the program. *)
Lemma cmd_main_runs (cfg : config) (w : world) (argv : list string) :
  2 <= List.length argv ->
  geteuid w <> 0%Z ->
  access w "/bin/notify-send" = true ->
  junk w 0 = "" -> junk w 1 = "" ->
  access w ("/bin/" ++ nth 1 argv "") = true ->
  List.length argv - 1 < slots w (sizeof_ptr + List.length argv) ->
  fork_fails w = false ->
  let vector := (map Some (tl argv) ++ [None])%list in
  let status := WEXITSTATUS (waitpid w ("/bin/" ++ nth 1 argv "") vector) in
  Cmd.main cfg w argv
  = Returned (status,
              Execv ("/bin/" ++ nth 1 argv "") vector
                :: Cmd.notify_status cfg status (nth 1 argv "")).
Proof.
  intros Hargc Heuid Hnotify Hj0 Hj1 Hprog Hroom Hfork vector status.
  unfold Cmd.main.
  destruct (Nat.ltb_spec (List.length argv) 2); [lia|].
  destruct (Z.eqb_spec (geteuid w) 0); [contradiction|].
  rewrite Hnotify. cbn [negb].
  unfold Cmd.prog_exists.
  destruct (create_progpath_clean w 0 (nth 1 argv "") Hj0) as (p0 & Hp0 & Ht0).
  rewrite Hp0. cbn [bind]. rewrite Ht0, Hprog. cbn [negb].
  destruct (main_argbuf_returns w argv Hargc Hroom) as [argbuf Hbuf].
  rewrite Hbuf. cbn [bind].
  unfold Cmd.run_prog.
  destruct (create_progpath_clean w 1 (nth 1 argv "") Hj1) as (p1 & Hp1 & Ht1).
  rewrite Hp1. cbn [bind]. rewrite Hfork.
  rewrite (main_argbuf_vector w argv argbuf Hargc Hbuf). cbn [bind].
  rewrite Ht1. reflexivity.
Qed.

Lemma exec0_main_inv (w : world) (argv : list string)
    (status : Z) (tr : list event) :
  Exec0.main w argv = Returned (status, tr) ->
  (status = 1%Z /\ launches tr = []) \/
  (exists path,
      2 <= List.length argv /\
      status = WEXITSTATUS (waitpid w path (map Some (tl argv) ++ [None])%list) /\
      tr = Execv path (map Some (tl argv) ++ [None])%list
             :: Exec0.notify (Exec0.notify_status_summary status)
                             (Exec0.notify_status_body status (nth 1 argv ""))).
Proof.
  unfold Exec0.main.
  destruct (Nat.ltb_spec (List.length argv) 2) as [|Hargc];
    [intros [= <- <-]; left; split; reflexivity|].
  destruct (access w "/bin/notify-send"); cbn [negb];
    [|intros [= <- <-]; left; split; reflexivity].
  destruct (main_argbuf w argv) as [argbuf| |] eqn:Hbuf;
    cbn [bind]; try discriminate.
  apply main_argbuf_vector in Hbuf; [|exact Hargc].
  unfold Exec0.run_prog.
  destruct (strcat _ DEFAULT_BINDIR_PREFIX) as [p0| |]; cbn [bind]; try discriminate.
  destruct (strcat p0 _) as [p1| |]; cbn [bind]; try discriminate.
  destruct (fork_fails w); try discriminate.
  rewrite Hbuf. cbn [bind].
  unfold Exec0.notify_status.
  destruct (Z.leb _ _); cbn [bind]; try discriminate.
  intros [= <- <-]. right. exists (text p1). repeat split; auto.
Qed.

(** The first variant hands the value of system() on: the status word, not
    the exit code.  The exit code of the target sits in bits 8 to 15, which
    the exit status of the tool does not have. *)
Lemma sys_main_returns_status_word (w : world) (argv : list string)
    (status : Z) (tr : list event) :
  2 <= List.length argv ->
  access w "/bin/notify-send" = true ->
  Sys.main w argv = Returned (status, tr) ->
  status = system w (Sys.main_cmdbuf (skipn 1 argv) "").
Proof.
  intros Hargc Hnotify. unfold Sys.main.
  destruct (Nat.ltb_spec (List.length argv) 2); [lia|].
  rewrite Hnotify. cbn [negb].
  destruct (Sys.notify_status _ _ _); cbn [bind]; try discriminate.
  now intros [= <- _].
Qed.

Example sys_main_loses_exit_code :
  Sys.main (desktop 3) argv_ls
  = Returned (768%Z,
              [System "ls ";
               Execl "/bin/notify-send"
                 ["/bin/notify-send"; "-t"; "3500"; "Error";
                  "'ls' has returned non-zero value"]])
  /\ exit_status 768 = 0%Z.
Proof. split; reflexivity. Qed.

(** The older variants have no privilege check and no check for the
    target. *)
Example exec0_main_runs_as_root :
  Exec0.main (as_root (desktop 0)) argv_ls
  = Returned (0%Z,
              [Execv "/bin/ls" [Some "ls"; None];
               Execl "/bin/notify-send"
                 ["/bin/notify-send"; "-t"; "3500"; "Success";
                  "'ls' has finished and returned 0"]]).
Proof. reflexivity. Qed.

Example exec0_main_starts_missing_target :
  access (without "/bin/ls" (desktop 0)) "/bin/ls" = false /\
  launches (match Exec0.main (without "/bin/ls" (desktop 0)) argv_ls with
            | Returned (_, tr) => tr
            | _ => []
            end)
  = [Execv "/bin/ls" [Some "ls"; None];
     Execl "/bin/notify-send"
       ["/bin/notify-send"; "-t"; "3500"; "Success";
        "'ls' has finished and returned 0"]].
Proof. split; reflexivity. Qed.

(** unnamed/part_000 computes its notification from the status and argv[1]
    as well. *)
Lemma exec0_notification (w : world) (argv : list string) (ret : Z)
    (tr : list event) :
  Exec0.main w argv = Returned (ret, tr) ->
  launches tr <> [] ->
  notifications tr
  = [(Exec0.notify_status_summary ret,
      Exec0.notify_status_body ret (nth 1 argv ""))].
Proof.
  intros Hrun Hran.
  destruct (exec0_main_inv _ _ _ _ Hrun) as [[_ Hnone] | (p & _ & _ & ->)].
  - contradiction.
  - reflexivity.
Qed.

(** * The specification, property by property *)



(** C2.  The body the current formatter hands to notify is cut after 255
    characters: for a command name of 250 characters and exit status 1 the
    message is the quoted name and " returned 1", the body that is sent
    ends after " re" and has lost the exit status. *)
Theorem notify_status_body_cut_short :
  Cmd.notify_status_message 1 long_name = "'" ++ long_name ++ "' returned 1"
  /\ Cmd.notify_status_body 1 long_name = "'" ++ long_name ++ "' re"
  /\ String.length (Cmd.notify_status_body 1 long_name) = 255.
Proof. repeat split; vm_compute; reflexivity. Qed.





(** C5.  When there is no file at /bin/notify-send, every variant of main
    returns 1 without having started any child: the check comes before the
    target is run. *)
Theorem main_checks_notifier_first (cfg : config) (w : world)
    (argv : list string) :
  access w "/bin/notify-send" = false ->
  (exists tr, Cmd.main cfg w argv = Returned (1%Z, tr) /\ launches tr = [])
  /\ (exists tr, Exec0.main w argv = Returned (1%Z, tr) /\ launches tr = [])
  /\ (exists tr, Sys.main w argv = Returned (1%Z, tr) /\ launches tr = [])
  /\ exit_status 1 = 1%Z.
Proof.
  intros Hmissing. unfold Cmd.main, Exec0.main, Sys.main.
  rewrite Hmissing. cbn [negb].
  destruct (List.length argv <? 2)%nat, (geteuid w =? 0)%Z;
    repeat split; eexists; split; reflexivity.
Qed.

Lemma main_checks_notifier_first_witness :
  access (without "/bin/notify-send" (desktop 0)) "/bin/notify-send" = false
  /\ (exists tr, Cmd.main cfg0 (without "/bin/notify-send" (desktop 0)) argv_sleep
                 = Returned (1%Z, tr) /\ launches tr = [])
  /\ (exists tr, Exec0.main (without "/bin/notify-send" (desktop 0)) argv_sleep
                 = Returned (1%Z, tr) /\ launches tr = [])
  /\ (exists tr, Sys.main (without "/bin/notify-send" (desktop 0)) argv_sleep
                 = Returned (1%Z, tr) /\ launches tr = [])
  /\ exit_status 1 = 1%Z.
Proof.
  split; [reflexivity|].
  apply (main_checks_notifier_first cfg0
           (without "/bin/notify-send" (desktop 0)) argv_sleep).
  reflexivity.
Defined.


(** C7.  For the command line "cmdnotify ls -l /tmp" the loop leaves three
    cells, the last realloc asks for sizeof(char * ) + (argbuf_entries + 1) =
    12 bytes, and the store of the NULL into cell 3 is outside that object,
    with objects of the exact size and with 24 usable bytes alike: no vector
    is handed to the child, main has undefined behaviour. *)
Theorem main_argbuf_null_outside_object :
  main_argbuf_loop (desktop 0) (skipn 2 argv_ls_l_tmp) 2 1
    [Ptr (Some "ls"); Indet; Indet]
  = Returned (3, [Ptr (Some "ls"); Ptr (Some "-l"); Ptr (Some "/tmp")])
  /\ List.length (realloc (desktop 0)
                    [Ptr (Some "ls"); Ptr (Some "-l"); Ptr (Some "/tmp")]
                    (sizeof_ptr + (3 + 1))) = 3
  /\ main_argbuf (desktop 0) argv_ls_l_tmp = Undefined
  /\ main_argbuf (exact (desktop 0)) argv_ls_l_tmp = Undefined
  /\ Cmd.main cfg0 (desktop 0) argv_ls_l_tmp = Undefined
  /\ Exec0.main (desktop 0) argv_ls_l_tmp = Undefined.
Proof. repeat split. Qed.

(** C8.  create_progpath appends to the string the block from malloc
    already holds.  On a recycled block that holds "x" the path of "ls" is
    "x/bin/ls" where the allocator leaves room, and the strcat leaves the
    object where it does not; main then runs execv on "x/bin/ls". *)
Theorem create_progpath_keeps_old_text :
  Cmd.create_progpath (recycled "x" (desktop 0)) 1 "ls"
  = Returned {| cap := 24; text := "x/bin/ls" |}
  /\ Cmd.create_progpath (exact (recycled "x" (desktop 0))) 1 "ls" = Undefined
  /\ Cmd.main cfg0 (recycled "x" (desktop 0)) argv_ls
     = Returned (0%Z,
                 [Execv "x/bin/ls" [Some "ls"; None];
                  Execl "/bin/notify-send"
                    ["/bin/notify-send"; "-t"; "3500"; "-u"; "normal";
                     "Success"; "'ls' returned 0"]]).
Proof. repeat split. Qed.

(** C9.  With fewer than two arguments every variant of main prints the
    usage error on stderr, returns 1 and does nothing else: no child is
    started. *)
Theorem main_too_few_arguments (cfg : config) (w : world)
    (argv : list string) :
  List.length argv < 2 ->
  let usage := [Stderr ("Error: Too few arguments!" ++ nl)] in
  Cmd.main cfg w argv = Returned (1%Z, usage)
  /\ Exec0.main w argv = Returned (1%Z, usage)
  /\ Sys.main w argv = Returned (1%Z, usage)
  /\ exit_status 1 = 1%Z
  /\ launches usage = [].
Proof.
  intros Hargc usage. unfold Cmd.main, Exec0.main, Sys.main.
  destruct (Nat.ltb_spec (List.length argv) 2); [|lia].
  repeat split.
Qed.

Lemma main_too_few_arguments_witness :
  List.length ["cmdnotify"] < 2
  /\ Cmd.main cfg0 (desktop 0) ["cmdnotify"]
     = Returned (1%Z, [Stderr ("Error: Too few arguments!" ++ nl)])
  /\ Exec0.main (desktop 0) ["cmdnotify"]
     = Returned (1%Z, [Stderr ("Error: Too few arguments!" ++ nl)])
  /\ Sys.main (desktop 0) ["cmdnotify"]
     = Returned (1%Z, [Stderr ("Error: Too few arguments!" ++ nl)])
  /\ exit_status 1 = 1%Z
  /\ launches [Stderr ("Error: Too few arguments!" ++ nl)] = [].
Proof.
  assert (Hargc : List.length ["cmdnotify"] < 2) by (cbn; lia).
  split; [exact Hargc|].
  exact (main_too_few_arguments cfg0 (desktop 0) ["cmdnotify"] Hargc).
Defined.

(** C10.  Two runs that both started their target, with the same argv[1]
    and the same exit code of the target, send the same summary and the same
    body, whatever the other arguments, the environment and the
    configuration are: both are computed from the status and argv[1]
    alone. *)
Theorem notification_depends_on_status_and_name
    (cfg cfg' : config) (w w' : world) (argv argv' : list string)
    (ret ret' : Z) (tr tr' : list event)
    (path path' : string) (vector vector' : list (option string)) :
  Cmd.main cfg w argv = Returned (ret, tr) ->
  Cmd.main cfg' w' argv' = Returned (ret', tr') ->
  In (Execv path vector) tr ->
  In (Execv path' vector') tr' ->
  nth 1 argv "" = nth 1 argv' "" ->
  WEXITSTATUS (waitpid w path vector) = WEXITSTATUS (waitpid w' path' vector') ->
  notifications tr = notifications tr'
  /\ notifications tr
     = [(Cmd.notify_status_summary (WEXITSTATUS (waitpid w path vector)),
         Cmd.notify_status_body (WEXITSTATUS (waitpid w path vector))
                                (nth 1 argv ""))].
Proof.
  assert (Hone : forall c v a r t p x,
             Cmd.main c v a = Returned (r, t) -> In (Execv p x) t ->
             notifications t
             = [(Cmd.notify_status_summary (WEXITSTATUS (waitpid v p x)),
                 Cmd.notify_status_body (WEXITSTATUS (waitpid v p x))
                                        (nth 1 a ""))]).
  { intros c v a r t p x Hrun Hin.
    destruct (cmd_main_inv _ _ _ _ _ Hrun)
      as [[_ Hnone] | (pp & _ & _ & _ & _ & Hret & Htr)].
    - assert (Hl : In (Execv p x) (launches t))
        by (apply filter_In; split; [exact Hin | reflexivity]).
      rewrite Hnone in Hl. destruct Hl.
    - subst t. destruct Hin as [Hhead | [Hrest | []]]; [|discriminate Hrest].
      injection Hhead as <- <-. rewrite <- Hret. reflexivity. }
  intros Hrun Hrun' Hin Hin' Hname Hcode.
  rewrite (Hone _ _ _ _ _ _ _ Hrun Hin), (Hone _ _ _ _ _ _ _ Hrun' Hin').
  rewrite Hname, Hcode. split; reflexivity.
Qed.

Lemma notification_depends_on_status_and_name_witness :
  let sent := Execl "/bin/notify-send"
                ["/bin/notify-send"; "-t"; "3500"; "-u"; "normal"; "Error";
                 "'sleep' returned 3"] in
  let tr := [Execv "/bin/sleep" [Some "sleep"; None]; sent] in
  let tr' := [Execv "/bin/sleep" [Some "sleep"; Some "1"; None]; sent] in
  Cmd.main cfg0 (desktop 3) ["cmdnotify"; "sleep"] = Returned (3%Z, tr)
  /\ Cmd.main cfg0 (desktop 3) argv_sleep = Returned (3%Z, tr')
  /\ notifications tr = notifications tr'
  /\ notifications tr = [("Error", "'sleep' returned 3")].
Proof.
  intros sent tr tr'.
  assert (Hrun : Cmd.main cfg0 (desktop 3) ["cmdnotify"; "sleep"]
                 = Returned (3%Z, tr)) by reflexivity.
  assert (Hrun' : Cmd.main cfg0 (desktop 3) argv_sleep = Returned (3%Z, tr'))
    by reflexivity.
  split; [exact Hrun|]. split; [exact Hrun'|].
  exact (notification_depends_on_status_and_name cfg0 cfg0
           (desktop 3) (desktop 3) ["cmdnotify"; "sleep"] argv_sleep 3 3 tr tr'
           "/bin/sleep" "/bin/sleep"
           [Some "sleep"; None] [Some "sleep"; Some "1"; None]
           Hrun Hrun' (or_introl eq_refl) (or_introl eq_refl)
           eq_refl eq_refl).
Defined.

(** * Further properties of the code *)

(** ** The command line of the first variant *)

Lemma append_nil_r (a : string) : a ++ "" = a.
Proof.
  induction a as [|c a IH]; cbn; [reflexivity | now rewrite IH].
Qed.

Lemma sys_main_cmdbuf_spaced (args : list string) :
  forall cmdbuf, Sys.main_cmdbuf args cmdbuf = cmdbuf ++ spaced args.
Proof.
  induction args as [|arg args IH]; intros cmdbuf; cbn [Sys.main_cmdbuf spaced].
  - now rewrite append_nil_r.
  - rewrite IH. unfold Sys.append, Sys.space_chr.
    rewrite substring_whole by lia. cbn [substring].
    rewrite !append_assoc. reflexivity.
Qed.

Lemma sysbuf_main_cmdbuf_len (args : list string) :
  forall n, SysBuf.main_cmdbuf_len args n = n + String.length (spaced args).
Proof.
  induction args as [|arg args IH]; intros n;
    cbn [SysBuf.main_cmdbuf_len spaced String.length].
  - lia.
  - rewrite IH, !length_append. cbn [String.length]. lia.
Qed.

Lemma sysbuf_append_fits (dest : chars) (src : string) (src_len : nat) :
  src_len <= String.length src ->
  String.length (text dest) + src_len <= cap dest ->
  SysBuf.append dest src src_len
  = Returned {| cap := cap dest; text := Sys.append (text dest) src src_len |}.
Proof.
  intros Hsrc Hfit. unfold SysBuf.append, Sys.append.
  destruct (Nat.leb_spec src_len (String.length src)); [|lia].
  destruct (Nat.leb_spec (String.length (text dest) + src_len) (cap dest)); [|lia].
  reflexivity.
Qed.

Lemma sys_append_length (dest src : string) (src_len : nat) :
  String.length (Sys.append dest src src_len)
  = String.length dest + Nat.min src_len (String.length src).
Proof.
  unfold Sys.append. now rewrite length_append, length_substring.
Qed.

Lemma sysbuf_main_cmdbuf_fill (args : list string) :
  forall cmdbuf,
    String.length (text cmdbuf) + String.length (spaced args) <= cap cmdbuf ->
    SysBuf.main_cmdbuf_fill args cmdbuf
    = Returned {| cap := cap cmdbuf;
                  text := Sys.main_cmdbuf args (text cmdbuf) |}.
Proof.
  induction args as [|arg args IH]; intros cmdbuf Hfit;
    cbn [SysBuf.main_cmdbuf_fill Sys.main_cmdbuf spaced] in *.
  - destruct cmdbuf; reflexivity.
  - rewrite !length_append in Hfit. cbn [String.length] in Hfit.
    rewrite sysbuf_append_fits by lia. cbn [bind].
    rewrite sysbuf_append_fits.
    + cbn [bind]. rewrite IH; [reflexivity|].
      cbn [cap text]. rewrite !sys_append_length.
      unfold Sys.space_chr. cbn [String.length]. lia.
    + cbn. lia.
    + cbn [cap text]. rewrite sys_append_length. lia.
Qed.

(** X1.  The buffer that the first loop of main sizes holds exactly what the
    second loop writes and the closing NUL, whatever the arguments and the
    allocator are: no append leaves the buffer, the NUL is stored inside
    it, and the string system() is given is the one the unsized model of
    the loop builds. *)
Theorem sys_cmdbuf_never_overflows (w : world) (argv : list string) :
  SysBuf.main_cmdbuf w argv = Returned (Sys.main_cmdbuf (skipn 1 argv) "")
  /\ String.length (Sys.main_cmdbuf (skipn 1 argv) "") + 1
     = SysBuf.main_cmdbuf_len (skipn 1 argv) 0 + 1.
Proof.
  assert (Hlen : String.length (Sys.main_cmdbuf (skipn 1 argv) "")
                 = SysBuf.main_cmdbuf_len (skipn 1 argv) 0)
    by (rewrite sys_main_cmdbuf_spaced, sysbuf_main_cmdbuf_len; reflexivity).
  split; [|now rewrite Hlen].
  unfold SysBuf.main_cmdbuf.
  rewrite sysbuf_main_cmdbuf_fill.
  - cbn [bind cap text]. rewrite Hlen.
    destruct (Nat.ltb_spec (SysBuf.main_cmdbuf_len (skipn 1 argv) 0)
                (SysBuf.main_cmdbuf_len (skipn 1 argv) 0 + 1
                 + slack w (SysBuf.main_cmdbuf_len (skipn 1 argv) 0 + 1)));
      [reflexivity | lia].
  - cbn [cap text String.length]. rewrite sysbuf_main_cmdbuf_len. lia.
Qed.

(** X2.  The first variant hands system() every argument after argv[0]
    followed by one space, so the command ends in a space, and it quotes
    nothing: an argument that holds a space gives the same command line as
    the two arguments it splits into. *)
Theorem sys_cmdbuf_joins_without_quoting (tool a b : string)
    (rest : list string) :
  Sys.main_cmdbuf (skipn 1 (tool :: a :: b :: rest)) ""
  = a ++ " " ++ b ++ " " ++ spaced rest
  /\ Sys.main_cmdbuf (skipn 1 (tool :: (a ++ " " ++ b) :: rest)) ""
     = Sys.main_cmdbuf (skipn 1 (tool :: a :: b :: rest)) "".
Proof.
  cbn [skipn]. rewrite !sys_main_cmdbuf_spaced. cbn [spaced append].
  split; [reflexivity|].
  rewrite !append_assoc. reflexivity.
Qed.

(** ** What the first variant returns *)

Lemma W_EXITCODE_zero (N : Z) :
  (0 <= N)%Z -> (W_EXITCODE N =? 0)%Z = (N =? 0)%Z.
Proof.
  intros HN. unfold W_EXITCODE. rewrite Z.shiftl_mul_pow2 by lia.
  destruct (Z.eqb_spec N 0) as [->|Hnz]; [reflexivity|].
  apply Z.eqb_neq. lia.
Qed.

(** X3.  In the first variant the notification tells success from failure
    correctly, but the exit status does not: when the shell reports that
    the command exited with code N, main returns the status word of
    system(), so the exit status of the tool is 0 for every N, while the
    summary is "Success" for N = 0 and "Error" otherwise. *)
Theorem sys_main_exit_status_zero (w : world) (argv : list string)
    (ret : Z) (tr : list event) (N : Z) :
  2 <= List.length argv ->
  access w "/bin/notify-send" = true ->
  system w (Sys.main_cmdbuf (skipn 1 argv) "") = W_EXITCODE N ->
  (0 <= N < 256)%Z ->
  Sys.main w argv = Returned (ret, tr) ->
  exit_status ret = 0%Z
  /\ map fst (notifications tr) = [if (N =? 0)%Z then "Success" else "Error"].
Proof.
  intros Hargc Hnotify Hsys HN. unfold Sys.main.
  destruct (Nat.ltb_spec (List.length argv) 2); [lia|].
  rewrite Hnotify, Hsys. cbn [negb].
  unfold Sys.notify_status, Exec0.notify_status.
  destruct (Z.leb _ _); cbn [bind]; [|discriminate].
  intros [= <- <-]. split; [apply exit_status_W_EXITCODE|].
  unfold Exec0.notify.
  cbn [notifications notification_of rev app map fst].
  unfold Exec0.notify_status_summary.
  rewrite W_EXITCODE_zero by lia. reflexivity.
Qed.

Lemma sys_main_exit_status_zero_witness :
  2 <= List.length argv_ls
  /\ access (desktop 3) "/bin/notify-send" = true
  /\ system (desktop 3) (Sys.main_cmdbuf (skipn 1 argv_ls) "") = W_EXITCODE 3
  /\ (0 <= 3 < 256)%Z
  /\ Sys.main (desktop 3) argv_ls
     = Returned (768%Z,
                 [System "ls ";
                  Execl "/bin/notify-send"
                    ["/bin/notify-send"; "-t"; "3500"; "Error";
                     "'ls' has returned non-zero value"]])
  /\ exit_status 768 = 0%Z
  /\ map fst (notifications
                [System "ls ";
                 Execl "/bin/notify-send"
                   ["/bin/notify-send"; "-t"; "3500"; "Error";
                    "'ls' has returned non-zero value"]])
     = [if (3 =? 0)%Z then "Success" else "Error"].
Proof.
  assert (Hargc : 2 <= List.length argv_ls) by (cbn; lia).
  assert (Hnotify : access (desktop 3) "/bin/notify-send" = true) by reflexivity.
  assert (Hsys : system (desktop 3) (Sys.main_cmdbuf (skipn 1 argv_ls) "")
                 = W_EXITCODE 3) by reflexivity.
  assert (HN : (0 <= 3 < 256)%Z) by lia.
  assert (Hrun : Sys.main (desktop 3) argv_ls
                 = Returned (768%Z,
                             [System "ls ";
                              Execl "/bin/notify-send"
                                ["/bin/notify-send"; "-t"; "3500"; "Error";
                                 "'ls' has returned non-zero value"]]))
    by reflexivity.
  repeat (split; [assumption|]).
  exact (sys_main_exit_status_zero (desktop 3) argv_ls 768 _ 3
           Hargc Hnotify Hsys HN Hrun).
Defined.

(** ** Runs of the fork/execv variants *)

Lemma WEXITSTATUS_low_byte (status : Z) :
  (0 <= status < 256)%Z -> WEXITSTATUS status = 0%Z.
Proof.
  intros H. unfold WEXITSTATUS.
  rewrite Z.shiftr_land, Z.shiftr_div_pow2 by lia.
  rewrite Z.div_small by (change (2 ^ 8)%Z with 256%Z; lia).
  reflexivity.
Qed.


Lemma launches_in (tr : list event) (e : event) :
  In e tr -> is_launch e = true -> launches tr <> [].
Proof.
  intros Hin Hl Hnone.
  assert (H : In e (launches tr)) by (apply filter_In; split; assumption).
  rewrite Hnone in H. destruct H.
Qed.

(** X4.  The value the two fork/execv variants of main return is always an
    exit status: between 0 and 255, so that the parent of the tool sees
    exactly the value main returned. *)
Theorem main_returns_exit_status (cfg : config) (w : world)
    (argv : list string) (ret : Z) (tr : list event) :
  Cmd.main cfg w argv = Returned (ret, tr)
  \/ Exec0.main w argv = Returned (ret, tr) ->
  (0 <= ret < 256)%Z /\ exit_status ret = ret.
Proof.
  intros Hrun.
  assert (Hret : (0 <= ret < 256)%Z).
  { destruct Hrun as [Hrun | Hrun].
    - destruct (cmd_main_inv _ _ _ _ _ Hrun)
        as [[-> _] | (p & _ & _ & _ & _ & -> & _)];
        [lia | apply WEXITSTATUS_range].
    - destruct (exec0_main_inv _ _ _ _ Hrun)
        as [[-> _] | (p & _ & -> & _)];
        [lia | apply WEXITSTATUS_range]. }
  split; [exact Hret | apply exit_status_small; exact Hret].
Qed.

Lemma main_returns_exit_status_witness :
  Cmd.main cfg0 (desktop 3) argv_sleep
  = Returned (3%Z,
              [Execv "/bin/sleep" [Some "sleep"; Some "1"; None];
               Execl "/bin/notify-send"
                 ["/bin/notify-send"; "-t"; "3500"; "-u"; "normal"; "Error";
                  "'sleep' returned 3"]])
  /\ (0 <= 3 < 256)%Z /\ exit_status 3 = 3%Z.
Proof.
  assert (Hrun : Cmd.main cfg0 (desktop 3) argv_sleep
                 = Returned (3%Z,
                             [Execv "/bin/sleep" [Some "sleep"; Some "1"; None];
                              Execl "/bin/notify-send"
                                ["/bin/notify-send"; "-t"; "3500"; "-u";
                                 "normal"; "Error"; "'sleep' returned 3"]]))
    by reflexivity.
  split; [exact Hrun|].
  exact (main_returns_exit_status cfg0 (desktop 3) argv_sleep 3 _
           (or_introl Hrun)).
Defined.

(** X5.  run_prog takes the exit code out of the status word without
    asking whether the child exited: for a target that a signal killed (a
    status word with nothing above its low byte) main returns 0 and the
    notification has the summary "Success". *)
Theorem main_reports_killed_target_as_success (cfg : config) (w : world)
    (argv : list string) (ret : Z) (tr : list event)
    (path : string) (vector : list (option string)) :
  Cmd.main cfg w argv = Returned (ret, tr) ->
  In (Execv path vector) tr ->
  (0 <= waitpid w path vector < 256)%Z ->
  ret = 0%Z /\ map fst (notifications tr) = ["Success"].
Proof.
  intros Hrun Hin Hword.
  destruct (cmd_main_inv _ _ _ _ _ Hrun)
    as [[_ Hnone] | (p & _ & _ & _ & _ & Hret & ->)].
  - contradiction (launches_in _ _ Hin eq_refl).
  - destruct Hin as [Hhead | [Hrest | []]]; [|discriminate Hrest].
    injection Hhead as <- <-.
    rewrite WEXITSTATUS_low_byte in Hret by exact Hword.
    subst ret. split; reflexivity.
Qed.

Lemma main_reports_killed_target_as_success_witness :
  let w := with_status segv_status (desktop 0) in
  let tr := [Execv "/bin/ls" [Some "ls"; None];
             Execl "/bin/notify-send"
               ["/bin/notify-send"; "-t"; "3500"; "-u"; "normal"; "Success";
                "'ls' returned 0"]] in
  Cmd.main cfg0 w argv_ls = Returned (0%Z, tr)
  /\ In (Execv "/bin/ls" [Some "ls"; None]) tr
  /\ (0 <= waitpid w "/bin/ls" [Some "ls"; None] < 256)%Z
  /\ 0%Z = 0%Z /\ map fst (notifications tr) = ["Success"].
Proof.
  intros w tr.
  assert (Hrun : Cmd.main cfg0 w argv_ls = Returned (0%Z, tr)) by reflexivity.
  assert (Hin : In (Execv "/bin/ls" [Some "ls"; None]) tr)
    by (left; reflexivity).
  assert (Hword : (0 <= waitpid w "/bin/ls" [Some "ls"; None] < 256)%Z)
    by (cbn; unfold segv_status; lia).
  repeat (split; [assumption|]).
  exact (main_reports_killed_target_as_success cfg0 w argv_ls 0 tr
           "/bin/ls" [Some "ls"; None] Hrun Hin Hword).
Defined.







(** ** The bodies of the notifications *)

Lemma substring_is_prefix (n : nat) (s : string) :
  exists rest, s = substring 0 n s ++ rest.
Proof.
  revert n. induction s as [|c s IH]; intros [|n]; cbn.
  - exists "". reflexivity.
  - exists "". reflexivity.
  - exists (String c s). reflexivity.
  - destruct (IH n) as [rest Hrest]. exists rest. now rewrite <- Hrest.
Qed.

(** X8.  The body the current formatter sends is never longer than 255
    characters and is always the beginning of the message
    "'<cmd>' returned <status>"; it is the whole message exactly when the
    message has at most 255 characters. *)
Theorem cmd_body_is_bounded_prefix (status : Z) (cmd : string) :
  String.length (Cmd.notify_status_body status cmd) <= 255
  /\ (exists rest,
         Cmd.notify_status_message status cmd
         = Cmd.notify_status_body status cmd ++ rest)
  /\ (Cmd.notify_status_body status cmd = Cmd.notify_status_message status cmd
      <-> String.length cmd + 12 + String.length (string_of_int status) <= 255).
Proof.
  assert (Hlen : String.length (Cmd.notify_status_body status cmd)
                 = Nat.min 255 (String.length
                                  (Cmd.notify_status_message status cmd)))
    by (unfold Cmd.notify_status_body, snprintf; apply length_substring).
  repeat split.
  - rewrite Hlen. lia.
  - apply substring_is_prefix.
  - intros Heq. rewrite Heq, cmd_message_length in Hlen. lia.
  - apply cmd_body_whole.
Qed.

Lemma string_of_int_exit_status (ret : Z) :
  (0 <= ret < 256)%Z -> String.length (string_of_int ret) <= 3.
Proof.
  intros Hret.
  assert (Hall : forallb (fun k => Nat.leb (String.length
                                             (string_of_int (Z.of_nat k))) 3)
                         (seq 0 256) = true) by (vm_compute; reflexivity).
  rewrite forallb_forall in Hall.
  specialize (Hall (Z.to_nat ret)).
  rewrite Z2Nat.id in Hall by lia.
  apply Nat.leb_le, Hall, in_seq. lia.
Qed.

(** X9.  The older formatter never cuts the command text, however long it
    is: its body is the quoted command followed by one of two fixed texts,
    chosen by whether the status is 0.  The body therefore does not tell
    one non-zero status from another. *)
Theorem exec0_body_text (status status' : Z) (cmd : string) :
  Exec0.notify_status_body status cmd
  = "'" ++ cmd ++ "' "
      ++ (if (status =? 0)%Z then "has finished and returned 0"
          else "has returned non-zero value")
  /\ (status <> 0%Z -> status' <> 0%Z ->
      Exec0.notify_status_body status cmd
      = Exec0.notify_status_body status' cmd).
Proof.
  destruct (exec0_body_message status cmd) as [Hbody _].
  destruct (exec0_body_message status' cmd) as [Hbody' _].
  split; [exact Hbody|].
  intros Hnz Hnz'. rewrite Hbody, Hbody'.
  apply Z.eqb_neq in Hnz, Hnz'. now rewrite Hnz, Hnz'.
Qed.

(** ** Diagnostics *)

(** X10.  The current main never stops silently: a run that returns
    without having started a child returned 1 and wrote exactly one of its
    four diagnostics to stderr, the one for the first check that failed
    (argument count, user id, notifier, target); the last one names the
    path under /bin/ and is followed by perror. *)
Theorem main_reports_why_it_stopped (cfg : config) (w : world)
    (argv : list string) (ret : Z) (tr : list event) :
  Cmd.main cfg w argv = Returned (ret, tr) ->
  launches tr = [] ->
  ret = 1%Z
  /\ ((List.length argv < 2
       /\ tr = [Stderr ("Error: Too few arguments!" ++ nl)])
      \/ (2 <= List.length argv /\ geteuid w = 0%Z
          /\ tr = [Stderr ("Please do not run as root." ++ nl)])
      \/ (2 <= List.length argv /\ geteuid w <> 0%Z
          /\ access w "/bin/notify-send" = false
          /\ tr = [Stderr ("Error: notify-send not found!" ++ nl)])
      \/ (2 <= List.length argv /\ geteuid w <> 0%Z
          /\ access w "/bin/notify-send" = true
          /\ Cmd.prog_exists w (nth 1 argv "") = Returned false
          /\ tr = [Stderr ("Failed to execute /bin/" ++ nth 1 argv "" ++ nl);
                   Perror "access"])).
Proof.
  intros Hrun Hnone.
  destruct (cmd_main_inv _ _ _ _ _ Hrun)
    as [[-> _] | (q & _ & _ & _ & _ & _ & ->)]; [|discriminate Hnone].
  split; [reflexivity|].
  revert Hrun. unfold Cmd.main.
  destruct (Nat.ltb_spec (List.length argv) 2) as [Hfew|Hargc];
    [intros [= <-]; left; auto|].
  destruct (Z.eqb_spec (geteuid w) 0) as [Hroot|Huser];
    [intros [= <-]; right; left; auto|].
  destruct (access w "/bin/notify-send") eqn:Hnotify; cbn [negb];
    [|intros [= <-]; right; right; left; auto].
  destruct (Cmd.prog_exists w (nth 1 argv "")) as [[|]| |] eqn:Hfound;
    cbn [bind negb]; try discriminate.
  - destruct (main_argbuf w argv); cbn [bind]; try discriminate.
    destruct (Cmd.run_prog w _ _) as [[status ran]| |] eqn:Hprog; cbn [bind];
      try discriminate.
    intros [= _ <-]. exfalso.
    unfold Cmd.run_prog in Hprog.
    destruct (Cmd.create_progpath w 1 _); cbn [bind] in Hprog; try discriminate.
    destruct (fork_fails w); try discriminate.
    destruct (read_argv _); cbn [bind] in Hprog; try discriminate.
    injection Hprog as _ <-. discriminate Hnone.
  - intros [= <-]. right; right; right. repeat split; auto.
Qed.

Lemma main_reports_why_it_stopped_witness :
  let w := without "/bin/ls" (desktop 0) in
  let tr := [Stderr ("Failed to execute /bin/ls" ++ nl); Perror "access"] in
  Cmd.main cfg0 w argv_ls = Returned (1%Z, tr)
  /\ launches tr = []
  /\ Cmd.prog_exists w (nth 1 argv_ls "") = Returned false.
Proof.
  intros w tr.
  assert (Hrun : Cmd.main cfg0 w argv_ls = Returned (1%Z, tr)) by reflexivity.
  assert (Hnone : launches tr = []) by reflexivity.
  split; [exact Hrun|]. split; [exact Hnone|].
  destruct (main_reports_why_it_stopped cfg0 w argv_ls 1 tr Hrun Hnone)
    as [_ [[Hfew _] | [(_ & Hroot & _) | [(_ & _ & Hnotify & _)
                                          | (_ & _ & _ & Hfound & _)]]]].
  - cbn in Hfew. lia.
  - discriminate Hroot.
  - discriminate Hnotify.
  - exact Hfound.
Defined.

(** ** A whole run *)

(** X11.  End to end: an ordinary user, notify-send and the target present
    under /bin/, clean memory for the two paths, a cell of slack for the
    NULL, a fork that works, a name of at most 240 characters and a target
    that exits with code N.  Then main runs /bin/<name> on argv[1], the
    remaining arguments and NULL, then notify-send with the configured
    timeout and urgency, the summary "Success" for N = 0 and "Error"
    otherwise and the body "'<name>' returned <N>", and returns N. *)
Theorem main_end_to_end (cfg : config) (w : world) (argv : list string)
    (N : Z) :
  2 <= List.length argv ->
  geteuid w <> 0%Z ->
  access w "/bin/notify-send" = true ->
  junk w 0 = "" -> junk w 1 = "" ->
  access w ("/bin/" ++ nth 1 argv "") = true ->
  List.length argv - 1 < slots w (sizeof_ptr + List.length argv) ->
  fork_fails w = false ->
  String.length (nth 1 argv "") <= 240 ->
  waitpid w ("/bin/" ++ nth 1 argv "") (map Some (tl argv) ++ [None])%list
  = W_EXITCODE N ->
  (0 <= N < 256)%Z ->
  Cmd.main cfg w argv
  = Returned (N,
              [Execv ("/bin/" ++ nth 1 argv "")
                     (map Some (tl argv) ++ [None])%list;
               Execl "/bin/notify-send"
                 ["/bin/notify-send"; "-t"; NOTIFY_SEND_TIMEOUT cfg; "-u";
                  NOTIFY_SEND_URGENCY cfg;
                  if (N =? 0)%Z then "Success" else "Error";
                  "'" ++ nth 1 argv "" ++ "' returned " ++ string_of_int N]])
  /\ exit_status N = N.
Proof.
  intros Hargc Heuid Hnotify Hj0 Hj1 Hprog Hroom Hfork Hname Hexit HN.
  split; [|apply exit_status_small; exact HN].
  rewrite (cmd_main_runs cfg w argv Hargc Heuid Hnotify Hj0 Hj1 Hprog Hroom Hfork).
  rewrite Hexit, WEXITSTATUS_W_EXITCODE by exact HN.
  unfold Cmd.notify_status, Cmd.notify.
  pose proof (string_of_int_exit_status N HN) as Hdigits.
  rewrite cmd_body_whole by lia. reflexivity.
Qed.

Lemma main_end_to_end_witness :
  2 <= List.length argv_sleep
  /\ geteuid (desktop 0) <> 0%Z
  /\ access (desktop 0) "/bin/notify-send" = true
  /\ junk (desktop 0) 0 = "" /\ junk (desktop 0) 1 = ""
  /\ access (desktop 0) ("/bin/" ++ nth 1 argv_sleep "") = true
  /\ List.length argv_sleep - 1
     < slots (desktop 0) (sizeof_ptr + List.length argv_sleep)
  /\ fork_fails (desktop 0) = false
  /\ String.length (nth 1 argv_sleep "") <= 240
  /\ waitpid (desktop 0) ("/bin/" ++ nth 1 argv_sleep "")
             (map Some (tl argv_sleep) ++ [None])%list = W_EXITCODE 0
  /\ (0 <= 0 < 256)%Z
  /\ Cmd.main cfg0 (desktop 0) argv_sleep
     = Returned (0%Z,
                 [Execv "/bin/sleep" [Some "sleep"; Some "1"; None];
                  Execl "/bin/notify-send"
                    ["/bin/notify-send"; "-t"; "3500"; "-u"; "normal";
                     "Success"; "'sleep' returned 0"]]).
Proof.
  assert (Hargc : 2 <= List.length argv_sleep) by (cbn; lia).
  assert (Heuid : geteuid (desktop 0) <> 0%Z) by (cbn; lia).
  assert (Hnotify : access (desktop 0) "/bin/notify-send" = true) by reflexivity.
  assert (Hj0 : junk (desktop 0) 0 = "") by reflexivity.
  assert (Hj1 : junk (desktop 0) 1 = "") by reflexivity.
  assert (Hprog : access (desktop 0) ("/bin/" ++ nth 1 argv_sleep "") = true)
    by reflexivity.
  assert (Hroom : List.length argv_sleep - 1
                  < slots (desktop 0) (sizeof_ptr + List.length argv_sleep))
    by (vm_compute; lia).
  assert (Hfork : fork_fails (desktop 0) = false) by reflexivity.
  assert (Hname : String.length (nth 1 argv_sleep "") <= 240) by (cbn; lia).
  assert (Hexit : waitpid (desktop 0) ("/bin/" ++ nth 1 argv_sleep "")
                          (map Some (tl argv_sleep) ++ [None])%list
                  = W_EXITCODE 0) by reflexivity.
  assert (HN : (0 <= 0 < 256)%Z) by lia.
  repeat (split; [assumption|]).
  exact (proj1 (main_end_to_end cfg0 (desktop 0) argv_sleep 0
                  Hargc Heuid Hnotify Hj0 Hj1 Hprog Hroom Hfork Hname Hexit HN)).
Defined.
